(** * Password verification of [src/backend/libpq/crypt.c]

    A shallow embedding of [md5_crypt_verify], the routine that checks the
    password response of a client against the [pg_authid] entry of a role,
    and the properties of it that the design document states.

    Conventions of the embedding.
    - A C string is the [string] of the bytes before its terminating NUL.
    - [md5_salt], a pointer with a length that may be NULL, is an
      [option string]: [None] is the NULL pointer (plaintext password
      sent), [Some salt] the [md5_salt_len] bytes of the challenge salt.
      The [Assert(md5_salt_len > 0)] has no effect in a production build
      and is not part of the model; no result below depends on the length
      of the salt.
    - The out-parameter [*logdetail] is the second component of the result:
      [None] when the routine does not store to it.
    - [GetCurrentTimestamp()] is the argument [now]. *)

From Stdlib Require Import ZArith String Ascii Bool Lia.
From stdpp Require Import base option gmap strings.

Local Open Scope string_scope.

Module Crypt.

(** [TimestampTz]: a 64-bit count; only compared here, never computed
    with, so it is kept as an integer. *)
Definition TimestampTz : Type := Z.

(** The two attributes of a [pg_authid] tuple that the routine reads with
    [SysCacheGetAttr]; [None] is an attribute that is SQL NULL ([isnull]). *)
Record pg_authid : Type := mk_authid {
  rolpassword : option string;
  rolvaliduntil : option TimestampTz
}.

(** The return value: the macros [STATUS_OK] and [STATUS_ERROR]. *)
Inductive status : Type :=
| STATUS_OK
| STATUS_ERROR.

(** The messages that the routine formats with [psprintf] into
    [*logdetail], each with the role name it is formatted with. *)
Inductive logmsg : Type :=
| RoleDoesNotExist (role : string)      (* Role "%s" does not exist. *)
| NoPasswordAssigned (role : string)    (* User "%s" has no password assigned. *)
| EmptyPassword (role : string)         (* User "%s" has an empty password. *)
| ExpiredPassword (role : string)       (* User "%s" has an expired password. *)
| PasswordMismatch (role : string).     (* Password does not match for user "%s". *)

#[global] Instance status_eq_dec : EqDecision status.
Proof. solve_decision. Defined.

#[global] Instance logmsg_eq_dec : EqDecision logmsg.
Proof. solve_decision. Defined.

(** [p + n] on a C string: the string from its [n]-th byte on. *)
Fixpoint skip_bytes (n : nat) (s : string) : string :=
  match n, s with
  | S n', String _ s' => skip_bytes n' s'
  | _, _ => s
  end.

(** [strcmp(a, b) == 0]. *)
Definition strcmp_eq (a b : string) : bool := String.eqb a b.

(** The design's "strip the marker", in its own words and not by an
    offset: a value that begins with the marker ["md5"] loses it, any other
    value is left as it is. *)
Definition strip_marker (hashed : string) : string :=
  match hashed with
  | String "m" (String "d" (String "5" digest)) => digest
  | _ => hashed
  end.

Section Verify.

(** [common/md5.h] and [libpq/md5.c] are not part of the sources at hand:
    the length [MD5_PASSWD_LEN] of a stored MD5 password and the keyed
    hash [pg_md5_encrypt(passwd, salt, salt_len, buf)] are parameters.
    [pg_md5_encrypt passwd salt] is [Some buf] when the call returns true
    and has filled [buf], and [None] when it returns false. *)
Variable MD5_PASSWD_LEN : nat.
Variable pg_md5_encrypt : string -> string -> option string.

(** Modelled from the spec: the macro [isMD5] of [common/md5.h], which is
    not part of the sources at hand. The hashed form is identified by its
    shape alone: the marker prefix (the ["md5"] whose length the routine
    skips) and the fixed length of a hashed password. *)
Definition isMD5 (passwd : string) : bool :=
  String.prefix "md5" passwd && Nat.eqb (String.length passwd) MD5_PASSWD_LEN.

(** Lines 96-154: the two strings that are compared, [crypt_client_pass]
    and [crypt_pwd], or [None] where a call of [pg_md5_encrypt] fails
    (the routine returns at once). *)
Definition crypt_values (role client_pass : string) (md5_salt : option string)
    (shadow_pass : string) : option (string * string) :=
  match md5_salt with
  | Some salt =>
      (* MD5 authentication *)
      if isMD5 shadow_pass then
        (* stored password already encrypted, only do salt *)
        crypt_pwd ← pg_md5_encrypt (skip_bytes (String.length "md5") shadow_pass) salt;
        Some (client_pass, crypt_pwd)
      else
        (* stored password is plain, double-encrypt *)
        crypt_pwd2 ← pg_md5_encrypt shadow_pass role;
        crypt_pwd ← pg_md5_encrypt (skip_bytes (String.length "md5") crypt_pwd2) salt;
        Some (client_pass, crypt_pwd)
  | None =>
      (* Client sent password in plaintext *)
      if isMD5 shadow_pass then
        (* Encrypt user-supplied password to match stored MD5 *)
        crypt_client_pass ← pg_md5_encrypt client_pass role;
        Some (crypt_client_pass, shadow_pass)
      else
        Some (client_pass, shadow_pass)
  end.

(** [md5_crypt_verify(role, client_pass, md5_salt, md5_salt_len, logdetail)],
    with the [AUTHNAME] system cache over [pg_authid] as a finite map from
    role names to tuples. *)
Definition md5_crypt_verify (syscache : gmap string pg_authid) (now : TimestampTz)
    (role client_pass : string) (md5_salt : option string)
    : status * option logmsg :=
  match syscache !! role with
  | None => (STATUS_ERROR, Some (RoleDoesNotExist role))      (* no such user *)
  | Some roleTup =>
      match rolpassword roleTup with
      | None => (STATUS_ERROR, Some (NoPasswordAssigned role)) (* user has no password *)
      | Some shadow_pass =>
          match shadow_pass with
          | EmptyString => (STATUS_ERROR, Some (EmptyPassword role)) (* empty password *)
          | String _ _ =>
              match crypt_values role client_pass md5_salt shadow_pass with
              | None => (STATUS_ERROR, None)
              | Some (crypt_client_pass, crypt_pwd) =>
                  if strcmp_eq crypt_client_pass crypt_pwd then
                    (* Password OK, now check to be sure we are not past
                       rolvaliduntil *)
                    match rolvaliduntil roleTup with
                    | None => (STATUS_OK, None)
                    | Some vuntil =>
                        if (vuntil <? now)%Z
                        then (STATUS_ERROR, Some (ExpiredPassword role))
                        else (STATUS_OK, None)
                    end
                  else (STATUS_ERROR, Some (PasswordMismatch role))
              end
          end
      end
  end.

(** Lines 161-170: the test on [rolvaliduntil] that follows a successful
    comparison, as a proposition: no expiry is set, or it is not before
    the current time. *)
Definition not_expired (roleTup : pg_authid) (now : TimestampTz) : Prop :=
  match rolvaliduntil roleTup with
  | None => True
  | Some vuntil => (now <= vuntil)%Z
  end.

(** The presented password matches: lines 96-156 reach the comparison and
    [strcmp] finds the two strings equal. *)
Definition password_matches (role client_pass : string) (md5_salt : option string)
    (shadow_pass : string) : Prop :=
  exists crypt_pwd : string,
    crypt_values role client_pass md5_salt shadow_pass = Some (crypt_pwd, crypt_pwd).

(** A call of [pg_md5_encrypt] that the routine makes returns false: the
    four calls of lines 104, 117, 126 and 144, each with the branch in which
    it is made. *)
Inductive hash_call_fails (role client_pass : string) : option string -> string -> Prop :=
| fails_salting_stored (salt shadow_pass : string) :
    isMD5 shadow_pass = true ->
    pg_md5_encrypt (skip_bytes 3 shadow_pass) salt = None ->
    hash_call_fails role client_pass (Some salt) shadow_pass
| fails_hashing_stored (salt shadow_pass : string) :
    isMD5 shadow_pass = false ->
    pg_md5_encrypt shadow_pass role = None ->
    hash_call_fails role client_pass (Some salt) shadow_pass
| fails_salting_upgraded (salt shadow_pass crypt_pwd2 : string) :
    isMD5 shadow_pass = false ->
    pg_md5_encrypt shadow_pass role = Some crypt_pwd2 ->
    pg_md5_encrypt (skip_bytes 3 crypt_pwd2) salt = None ->
    hash_call_fails role client_pass (Some salt) shadow_pass
| fails_hashing_client (shadow_pass : string) :
    isMD5 shadow_pass = true ->
    pg_md5_encrypt client_pass role = None ->
    hash_call_fails role client_pass None shadow_pass.

(** The design's data model: the form of a stored credential, read off its
    bytes by [isMD5]. *)
Inductive StoredForm : Type :=
| Hashed
| LegacyPlaintext.

Definition stored_form (shadow_pass : string) : StoredForm :=
  if isMD5 shadow_pass then Hashed else LegacyPlaintext.

(** The design's step 3 in its own words, to be compared with
    [crypt_values]: the pair (presented value, expected value) by cases on
    stored form and presented form, a presented challenge response being
    one that comes with a session salt. *)
Definition comparison_by_cases (identityName presented : string)
    (sessionSalt : option string) (stored : string) : option (string * string) :=
  match stored_form stored, sessionSalt with
  | Hashed, Some salt =>
      (* strip the marker, combine with the session salt *)
      expected ← pg_md5_encrypt (strip_marker stored) salt;
      Some (presented, expected)
  | LegacyPlaintext, Some salt =>
      (* the upgrade path *)
      intermediate ← pg_md5_encrypt stored identityName;
      expected ← pg_md5_encrypt (strip_marker intermediate) salt;
      Some (presented, expected)
  | Hashed, None =>
      (* hash the presented plaintext keyed on the identity name *)
      hashed ← pg_md5_encrypt presented identityName;
      Some (hashed, stored)
  | LegacyPlaintext, None =>
      (* compare raw bytes directly *)
      Some (presented, stored)
  end.

(** The failure classes of the design. *)
Inductive FailureClass : Type :=
| IdentityNotFound
| EmptyCredential
| Mismatch
| Expired
| HashingFailure.

(** When a call is in a failure class, and what the routine stores to
    [*logdetail] there, branch by branch: lines 57-62; 66-72 and 82-87
    (no password value, or an empty one); a failing call of
    [pg_md5_encrypt]; the [else] of the comparison, lines 172-174; and the
    expiry test after a successful comparison, lines 163-168. *)
Inductive fails_as (syscache : gmap string pg_authid) (now : TimestampTz)
    (role client_pass : string) (md5_salt : option string)
    : FailureClass -> option logmsg -> Prop :=
| role_missing :
    syscache !! role = None ->
    fails_as syscache now role client_pass md5_salt
             IdentityNotFound (Some (RoleDoesNotExist role))
| password_null (roleTup : pg_authid) :
    syscache !! role = Some roleTup ->
    rolpassword roleTup = None ->
    fails_as syscache now role client_pass md5_salt
             EmptyCredential (Some (NoPasswordAssigned role))
| password_empty (roleTup : pg_authid) :
    syscache !! role = Some roleTup ->
    rolpassword roleTup = Some EmptyString ->
    fails_as syscache now role client_pass md5_salt
             EmptyCredential (Some (EmptyPassword role))
| hash_failed (roleTup : pg_authid) (shadow_pass : string) :
    syscache !! role = Some roleTup ->
    rolpassword roleTup = Some shadow_pass ->
    shadow_pass <> EmptyString ->
    hash_call_fails role client_pass md5_salt shadow_pass ->
    fails_as syscache now role client_pass md5_salt HashingFailure None
| password_differs (roleTup : pg_authid) (shadow_pass crypt_client_pass crypt_pwd : string) :
    syscache !! role = Some roleTup ->
    rolpassword roleTup = Some shadow_pass ->
    shadow_pass <> EmptyString ->
    crypt_values role client_pass md5_salt shadow_pass
    = Some (crypt_client_pass, crypt_pwd) ->
    crypt_client_pass <> crypt_pwd ->
    fails_as syscache now role client_pass md5_salt
             Mismatch (Some (PasswordMismatch role))
| password_expired (roleTup : pg_authid) (shadow_pass : string) (vuntil : TimestampTz) :
    syscache !! role = Some roleTup ->
    rolpassword roleTup = Some shadow_pass ->
    shadow_pass <> EmptyString ->
    password_matches role client_pass md5_salt shadow_pass ->
    rolvaliduntil roleTup = Some vuntil ->
    (vuntil < now)%Z ->
    fails_as syscache now role client_pass md5_salt
             Expired (Some (ExpiredPassword role)).

End Verify.

(** One byte of a string replaced by a different byte. *)
Inductive one_byte_altered : string -> string -> Prop :=
| altered_here (c c' : ascii) (s : string) :
    c <> c' -> one_byte_altered (String c s) (String c' s)
| altered_later (c : ascii) (s s' : string) :
    one_byte_altered s s' -> one_byte_altered (String c s) (String c s').

(** Concrete data on which the results are exercised. [encrypt] stands in
    for the keyed hash: it has the shape of a stored MD5 password (the
    marker and 32 more bytes) but is no digest: the 32 bytes are the first
    bytes of the salt followed by the password, padded with zeros. *)
Module Sample.

Definition PASSWD_LEN : nat := 35.

Fixpoint fit (n : nat) (s : string) : string :=
  match n with
  | O => EmptyString
  | S n' =>
      match s with
      | EmptyString => String "0" (fit n' EmptyString)
      | String c s' => String c (fit n' s')
      end
  end.

Definition encrypt (passwd salt : string) : option string :=
  Some ("md5" ++ fit 32 (salt ++ passwd)).

(** A hash whose every call fails. *)
Definition encrypt_fails (passwd salt : string) : option string := None.


Definition alice_hashed : string := "md5alicesecret123000000000000000000".

(** A directory: a legacy plaintext password, two hashed ones (the second
    from a password that [encrypt] cuts short), a legacy plaintext with an
    expiry, a NULL password and an empty one. *)
Definition authid : gmap string pg_authid :=
  {[ "alice" := mk_authid (Some "secret123") None;
     "bob" := mk_authid (Some "md5bobp@ss0000000000000000000000000") None;
     "frank" := mk_authid (Some "md5frankcorrect-horse-battery-stapl") None;
     "grace" := mk_authid (Some "md5gracecorrect-horse-battery-stapl") None;
     "carol" := mk_authid (Some "hunter2") (Some 1000000000%Z);
     "dave" := mk_authid None None;
     "erin" := mk_authid (Some "") None ]}.

End Sample.

(** ** Auxiliary facts *)

Lemma strcmp_eq_true (a b : string) : strcmp_eq a b = true <-> a = b.
Proof. unfold strcmp_eq. apply String.eqb_eq. Qed.

Lemma strcmp_eq_false (a b : string) : strcmp_eq a b = false <-> a <> b.
Proof. unfold strcmp_eq. apply String.eqb_neq. Qed.

Lemma strcmp_eq_refl (a : string) : strcmp_eq a a = true.
Proof. apply strcmp_eq_true. reflexivity. Qed.


Lemma one_byte_altered_length (s s' : string) :
  one_byte_altered s s' -> String.length s = String.length s'.
Proof. induction 1; simpl; congruence. Qed.

Lemma prefix_cons (a : ascii) (s p : string) :
  String.prefix (String a s) p = true ->
  exists rest : string, p = String a rest /\ String.prefix s rest = true.
Proof.
  destruct p as [| b rest]; cbn [String.prefix]; [discriminate |].
  destruct (ascii_dec a b) as [-> |]; [| discriminate].
  intros Hrest. exists rest. split; [reflexivity | exact Hrest].
Qed.

(** On a value that begins with the marker, the routine's offset of
    [strlen("md5")] bytes strips the marker. *)
Lemma skip_marker_strips (hashed : string) :
  String.prefix "md5" hashed = true ->
  skip_bytes (String.length "md5") hashed = strip_marker hashed.
Proof.
  intros Hmarker.
  apply prefix_cons in Hmarker. destruct Hmarker as (p1 & -> & Hmarker).
  apply prefix_cons in Hmarker. destruct Hmarker as (p2 & -> & Hmarker).
  apply prefix_cons in Hmarker. destruct Hmarker as (p3 & -> & _).
  reflexivity.
Qed.


Section Outcome.

Variable MD5_PASSWD_LEN : nat.
Variable pg_md5_encrypt : string -> string -> option string.

#[local] Abbreviation verify := (md5_crypt_verify MD5_PASSWD_LEN pg_md5_encrypt).
#[local] Abbreviation values := (crypt_values MD5_PASSWD_LEN pg_md5_encrypt).

Variable syscache : gmap string pg_authid.
Variables role shadow_pass : string.
Variable roleTup : pg_authid.
Hypothesis Hrole : syscache !! role = Some roleTup.
Hypothesis Hpass : rolpassword roleTup = Some shadow_pass.
Hypothesis Hnonempty : shadow_pass <> "".

(** Past the three early returns the routine is the comparison followed by
    the expiry test. *)
Lemma verify_reaches_comparison (now : TimestampTz) (client_pass : string)
    (md5_salt : option string) :
  verify syscache now role client_pass md5_salt =
  match values role client_pass md5_salt shadow_pass with
  | None => (STATUS_ERROR, None)
  | Some (crypt_client_pass, crypt_pwd) =>
      if strcmp_eq crypt_client_pass crypt_pwd then
        match rolvaliduntil roleTup with
        | None => (STATUS_OK, None)
        | Some vuntil =>
            if (vuntil <? now)%Z
            then (STATUS_ERROR, Some (ExpiredPassword role))
            else (STATUS_OK, None)
        end
      else (STATUS_ERROR, Some (PasswordMismatch role))
  end.
Proof.
  unfold md5_crypt_verify. rewrite Hrole, Hpass.
  destruct shadow_pass; [contradiction Hnonempty; reflexivity | reflexivity].
Qed.

Lemma verify_accepts_iff (now : TimestampTz) (client_pass : string)
    (md5_salt : option string) :
  verify syscache now role client_pass md5_salt = (STATUS_OK, None) <->
  password_matches MD5_PASSWD_LEN pg_md5_encrypt role client_pass md5_salt shadow_pass
  /\ not_expired roleTup now.
Proof.
  rewrite verify_reaches_comparison. unfold password_matches, not_expired.
  destruct (values role client_pass md5_salt shadow_pass) as [[c p] |].
  - destruct (strcmp_eq c p) eqn:Hcmp.
    + apply strcmp_eq_true in Hcmp. subst p.
      destruct (rolvaliduntil roleTup) as [vuntil |].
      * destruct (Z.ltb_spec vuntil now); split; try discriminate.
        -- intros [_ Hle]. lia.
        -- intros _. split; [eexists; reflexivity | lia].
        -- reflexivity.
      * split; [intros _; split; [eexists; reflexivity | exact I] | reflexivity].
    + apply strcmp_eq_false in Hcmp. split; [discriminate |].
      intros [[v Hv] _]. congruence.
  - split; [discriminate | intros [[v Hv] _]; discriminate].
Qed.

Lemma verify_mismatch_iff (now : TimestampTz) (client_pass : string)
    (md5_salt : option string) :
  verify syscache now role client_pass md5_salt
    = (STATUS_ERROR, Some (PasswordMismatch role)) <->
  exists c p : string,
    values role client_pass md5_salt shadow_pass = Some (c, p) /\ c <> p.
Proof.
  rewrite verify_reaches_comparison.
  destruct (values role client_pass md5_salt shadow_pass) as [[c p] |].
  - destruct (strcmp_eq c p) eqn:Hcmp.
    + apply strcmp_eq_true in Hcmp. subst p. split.
      * destruct (rolvaliduntil roleTup); [destruct (_ <? _)%Z |]; discriminate.
      * intros (c' & p' & Heq & Hne). congruence.
    + apply strcmp_eq_false in Hcmp. split; [| reflexivity].
      intros _. exists c, p. split; [reflexivity | exact Hcmp].
  - split; [discriminate | intros (c & p & Heq & _); discriminate].
Qed.

Lemma verify_hash_failure_iff (now : TimestampTz) (client_pass : string)
    (md5_salt : option string) :
  verify syscache now role client_pass md5_salt = (STATUS_ERROR, None) <->
  values role client_pass md5_salt shadow_pass = None.
Proof.
  rewrite verify_reaches_comparison.
  destruct (values role client_pass md5_salt shadow_pass) as [[c p] |].
  - split; [| discriminate].
    destruct (strcmp_eq c p); [| discriminate].
    destruct (rolvaliduntil roleTup); [destruct (_ <? _)%Z |]; discriminate.
  - split; reflexivity.
Qed.

End Outcome.

Section Comparison.

Variable MD5_PASSWD_LEN : nat.
Variable pg_md5_encrypt : string -> string -> option string.

#[local] Abbreviation values := (crypt_values MD5_PASSWD_LEN pg_md5_encrypt).
#[local] Abbreviation is_md5 := (isMD5 MD5_PASSWD_LEN).

Lemma isMD5_nonempty (passwd : string) : is_md5 passwd = true -> passwd <> "".
Proof. intros H ->. discriminate H. Qed.

Lemma stored_form_hashed (shadow_pass : string) :
  stored_form MD5_PASSWD_LEN shadow_pass = Hashed <-> is_md5 shadow_pass = true.
Proof. unfold stored_form. destruct (is_md5 shadow_pass); split; congruence. Qed.

Lemma stored_form_legacy (shadow_pass : string) :
  stored_form MD5_PASSWD_LEN shadow_pass = LegacyPlaintext <-> is_md5 shadow_pass = false.
Proof. unfold stored_form. destruct (is_md5 shadow_pass); split; congruence. Qed.

Lemma isMD5_marker (passwd : string) :
  is_md5 passwd = true -> String.prefix "md5" passwd = true.
Proof. unfold isMD5. intros H. apply andb_true_iff in H. tauto. Qed.

(** The routine's comparison values are those of the design's case split,
    where the name-keyed hash of the stored value carries the marker. *)
Lemma crypt_values_by_cases (role client_pass : string) (md5_salt : option string)
    (shadow_pass : string) :
  (forall intermediate : string,
      pg_md5_encrypt shadow_pass role = Some intermediate ->
      String.prefix "md5" intermediate = true) ->
  values role client_pass md5_salt shadow_pass =
  comparison_by_cases MD5_PASSWD_LEN pg_md5_encrypt role client_pass md5_salt shadow_pass.
Proof.
  intros Hmarked. unfold crypt_values, comparison_by_cases, stored_form.
  destruct md5_salt as [salt |]; destruct (is_md5 shadow_pass) eqn:Hform;
    try reflexivity.
  - rewrite (skip_marker_strips shadow_pass (isMD5_marker _ Hform)). reflexivity.
  - destruct (pg_md5_encrypt shadow_pass role) as [intermediate |] eqn:Hhash;
      [| reflexivity].
    cbn -[skip_bytes strip_marker String.length].
    rewrite (skip_marker_strips intermediate (Hmarked _ eq_refl)). reflexivity.
Qed.

(** With a salt, the presented value is compared as it is, and the expected
    value does not depend on it. *)
Lemma crypt_values_salted (role client_pass salt shadow_pass c p : string) :
  values role client_pass (Some salt) shadow_pass = Some (c, p) ->
  c = client_pass /\
  forall client_pass' : string,
    values role client_pass' (Some salt) shadow_pass = Some (client_pass', p).
Proof.
  unfold crypt_values. destruct (is_md5 shadow_pass).
  - destruct (pg_md5_encrypt _ salt) as [e |]; simpl; [| discriminate].
    intros [= <- <-]. split; reflexivity.
  - destruct (pg_md5_encrypt shadow_pass role) as [h |]; simpl; [| discriminate].
    destruct (pg_md5_encrypt _ salt) as [e |]; simpl; [| discriminate].
    intros [= <- <-]. split; reflexivity.
Qed.

Lemma crypt_values_none_iff (role client_pass : string) (md5_salt : option string)
    (shadow_pass : string) :
  values role client_pass md5_salt shadow_pass = None <->
  hash_call_fails MD5_PASSWD_LEN pg_md5_encrypt role client_pass md5_salt shadow_pass.
Proof.
  unfold crypt_values. split.
  - destruct md5_salt as [salt |]; destruct (is_md5 shadow_pass) eqn:Hform.
    + destruct (pg_md5_encrypt _ salt) eqn:He; simpl; [discriminate |].
      intros _. apply fails_salting_stored; assumption.
    + destruct (pg_md5_encrypt shadow_pass role) as [h |] eqn:Hh; simpl.
      * destruct (pg_md5_encrypt _ salt) eqn:He; simpl; [discriminate |].
        intros _. eapply fails_salting_upgraded; eassumption.
      * intros _. apply fails_hashing_stored; assumption.
    + destruct (pg_md5_encrypt client_pass role) eqn:He; simpl; [discriminate |].
      intros _. apply fails_hashing_client; assumption.
    + discriminate.
  - intros [salt sp Hform He | salt sp Hform He | salt sp h Hform Hh He | sp Hform He];
      rewrite Hform; simpl in *.
    + rewrite He. reflexivity.
    + rewrite He. reflexivity.
    + rewrite Hh. simpl. rewrite He. reflexivity.
    + rewrite He. reflexivity.
Qed.

End Comparison.

(** ** The stated properties *)

(** Closes a goal about an outcome that has been computed: picks the
    outcome among the alternatives. *)
Ltac classify_outcome :=
  simpl; repeat split; auto 10; discriminate.

Section Claims.

Variable MD5_PASSWD_LEN : nat.
Variable pg_md5_encrypt : string -> string -> option string.

#[local] Abbreviation verify := (md5_crypt_verify MD5_PASSWD_LEN pg_md5_encrypt).
#[local] Abbreviation values := (crypt_values MD5_PASSWD_LEN pg_md5_encrypt).
#[local] Abbreviation is_md5 := (isMD5 MD5_PASSWD_LEN).
#[local] Abbreviation matches := (password_matches MD5_PASSWD_LEN pg_md5_encrypt).
#[local] Abbreviation hash_fails := (hash_call_fails MD5_PASSWD_LEN pg_md5_encrypt).
#[local] Abbreviation fails := (fails_as MD5_PASSWD_LEN pg_md5_encrypt).

(** C1. Upgrade equivalence. Let [secret] be stored as it is (a legacy
    plaintext: it has not the shape of a hashed password) and let [hashed]
    be what the keyed hash makes of [secret] and the identity name [id],
    stored in its place (of the hashed shape). For every session salt the
    expected challenge digest that the routine computes from [secret], by
    hashing it keyed on [id] and then combining with the salt, is the one
    it computes directly from [hashed] by stripping the marker and
    combining with the salt. Hence the two stored forms give one and the
    same outcome for every presented digest, expiry and time. *)
Theorem upgrade_equivalence (secret id salt hashed : string) :
  is_md5 secret = false ->
  pg_md5_encrypt secret id = Some hashed ->
  is_md5 hashed = true ->
  (forall presented : string,
      values id presented (Some salt) secret = values id presented (Some salt) hashed)
  /\ (secret <> "" ->
      forall (syscache : gmap string pg_authid) (validUntil : option TimestampTz)
             (now : TimestampTz) (presented : string),
        verify (<[id := mk_authid (Some secret) validUntil]> syscache)
               now id presented (Some salt)
        = verify (<[id := mk_authid (Some hashed) validUntil]> syscache)
                 now id presented (Some salt)).
Proof.
  intros Hlegacy Hhash Hshape.
  assert (Hvalues : forall presented : string,
             values id presented (Some salt) secret
             = values id presented (Some salt) hashed).
  { intros presented. unfold crypt_values.
    rewrite Hlegacy, Hshape, Hhash. reflexivity. }
  split; [exact Hvalues |].
  intros Hne syscache validUntil now presented.
  rewrite (verify_reaches_comparison MD5_PASSWD_LEN pg_md5_encrypt _ id secret
             (mk_authid (Some secret) validUntil))
    by (try apply lookup_insert_eq; try reflexivity; assumption).
  rewrite (verify_reaches_comparison MD5_PASSWD_LEN pg_md5_encrypt _ id hashed
             (mk_authid (Some hashed) validUntil))
    by (try apply lookup_insert_eq; try reflexivity;
        eapply isMD5_nonempty; eassumption).
  rewrite Hvalues. reflexivity.
Qed.

(** C3. The comparison is by cases on stored form and presented form, and
    the four cases are all there are: the values the routine compares are
    those of [comparison_by_cases] (hashed and challenge response: the
    marker stripped from the stored value, the rest salted; hashed and
    plaintext: the presented plaintext hashed keyed on the name, against
    the stored value; legacy plaintext and plaintext: the raw bytes;
    legacy plaintext and challenge response: the upgrade path, the marker
    stripped from the name-keyed hash of the stored value), and a role
    with a non-empty password is accepted exactly when these two values
    are equal and the password has not expired. The marker that the
    routine skips on the upgrade path is that of the output of the keyed
    hash, which is taken to begin with it. *)
Theorem comparison_case_split (syscache : gmap string pg_authid) (now : TimestampTz)
    (role client_pass : string) (md5_salt : option string)
    (roleTup : pg_authid) (shadow_pass : string) :
  syscache !! role = Some roleTup ->
  rolpassword roleTup = Some shadow_pass ->
  shadow_pass <> "" ->
  (forall intermediate : string,
      pg_md5_encrypt shadow_pass role = Some intermediate ->
      String.prefix "md5" intermediate = true) ->
  values role client_pass md5_salt shadow_pass
  = comparison_by_cases MD5_PASSWD_LEN pg_md5_encrypt role client_pass md5_salt shadow_pass
  /\ (verify syscache now role client_pass md5_salt = (STATUS_OK, None) <->
      (exists v : string,
          comparison_by_cases MD5_PASSWD_LEN pg_md5_encrypt
                              role client_pass md5_salt shadow_pass = Some (v, v))
      /\ not_expired roleTup now).
Proof.
  intros Hrole Hpass Hne Hmarked.
  pose proof (crypt_values_by_cases MD5_PASSWD_LEN pg_md5_encrypt
                role client_pass md5_salt shadow_pass Hmarked) as Hcases.
  split; [exact Hcases |].
  rewrite (verify_accepts_iff _ _ _ _ _ _ Hrole Hpass Hne).
  unfold password_matches. rewrite Hcases. reflexivity.
Qed.

(** C4. A role that is not in the directory is rejected with the
    diagnostic that the role does not exist, whatever is presented. *)
Theorem identity_not_found (syscache : gmap string pg_authid) (role : string) :
  syscache !! role = None ->
  forall (now : TimestampTz) (client_pass : string) (md5_salt : option string),
    verify syscache now role client_pass md5_salt
    = (STATUS_ERROR, Some (RoleDoesNotExist role)).
Proof.
  intros Hrole now client_pass md5_salt.
  unfold md5_crypt_verify. rewrite Hrole. reflexivity.
Qed.

(** C5. A stored password with no bytes is rejected with the diagnostic of
    an empty password, whatever is presented; and a role with no password
    value at all (NULL) is rejected as well, as having no password
    assigned. *)
Theorem empty_credential_rejected (syscache : gmap string pg_authid) (role : string)
    (roleTup : pg_authid) :
  syscache !! role = Some roleTup ->
  forall (now : TimestampTz) (client_pass : string) (md5_salt : option string),
    (rolpassword roleTup = Some "" ->
     verify syscache now role client_pass md5_salt
     = (STATUS_ERROR, Some (EmptyPassword role)))
    /\ (rolpassword roleTup = None ->
        verify syscache now role client_pass md5_salt
        = (STATUS_ERROR, Some (NoPasswordAssigned role))).
Proof.
  intros Hrole now client_pass md5_salt.
  unfold md5_crypt_verify. rewrite Hrole.
  split; intros ->; reflexivity.
Qed.

(** C6. Expiration boundary. For a presented secret that matches: with
    [validUntil = T] the routine accepts at any time before [T] (so at
    [T] less one second) and rejects as expired at any time after [T] (so
    at [T] plus one second); with no [validUntil] it accepts at every
    time. *)
Theorem expiration_boundary (syscache : gmap string pg_authid)
    (role client_pass : string) (md5_salt : option string)
    (roleTup : pg_authid) (shadow_pass : string) :
  syscache !! role = Some roleTup ->
  rolpassword roleTup = Some shadow_pass ->
  shadow_pass <> "" ->
  matches role client_pass md5_salt shadow_pass ->
  (forall T second : TimestampTz,
      rolvaliduntil roleTup = Some T ->
      (0 < second)%Z ->
      verify syscache (T - second)%Z role client_pass md5_salt = (STATUS_OK, None)
      /\ verify syscache (T + second)%Z role client_pass md5_salt
         = (STATUS_ERROR, Some (ExpiredPassword role)))
  /\ (rolvaliduntil roleTup = None ->
      forall now : TimestampTz,
        verify syscache now role client_pass md5_salt = (STATUS_OK, None)).
Proof.
  intros Hrole Hpass Hne [v Hv]. split.
  - intros T second HT Hpos.
    rewrite !(verify_reaches_comparison _ _ _ _ _ _ Hrole Hpass Hne).
    rewrite Hv, strcmp_eq_refl, HT.
    destruct (Z.ltb_spec T (T - second)), (Z.ltb_spec T (T + second));
      try lia. split; reflexivity.
  - intros Hnone now.
    rewrite (verify_reaches_comparison _ _ _ _ _ _ Hrole Hpass Hne).
    rewrite Hv, strcmp_eq_refl, Hnone. reflexivity.
Qed.

(** C7. When a call of the keyed hash that the routine makes fails, the
    routine rejects and stores no diagnostic: an outcome of its own, which
    is not the mismatch outcome and which nothing but a failing hash call
    produces. *)
Theorem hash_failure_outcome (syscache : gmap string pg_authid) (now : TimestampTz)
    (role client_pass : string) (md5_salt : option string)
    (roleTup : pg_authid) (shadow_pass : string) :
  syscache !! role = Some roleTup ->
  rolpassword roleTup = Some shadow_pass ->
  shadow_pass <> "" ->
  (hash_fails role client_pass md5_salt shadow_pass <->
   verify syscache now role client_pass md5_salt = (STATUS_ERROR, None))
  /\ (hash_fails role client_pass md5_salt shadow_pass ->
      fst (verify syscache now role client_pass md5_salt) = STATUS_ERROR
      /\ snd (verify syscache now role client_pass md5_salt)
         <> Some (PasswordMismatch role)).
Proof.
  intros Hrole Hpass Hne.
  assert (Hiff : hash_fails role client_pass md5_salt shadow_pass <->
                 verify syscache now role client_pass md5_salt = (STATUS_ERROR, None)).
  { rewrite (verify_hash_failure_iff _ _ _ _ _ _ Hrole Hpass Hne).
    symmetry. apply crypt_values_none_iff. }
  split; [exact Hiff |].
  intros Hfail. apply Hiff in Hfail. rewrite Hfail. split; [reflexivity | discriminate].
Qed.

(** C8. Every call returns one of the two results, accept or reject: it
    is accepted, or it is in a failure class. In each of the five failure
    classes (role missing; no password value or an empty one; mismatch;
    expired; a failing hash call) the routine returns the same
    [STATUS_ERROR], with the diagnostic of the class (none for a failing
    hash call), and the diagnostic alone tells the classes apart. *)
Theorem outcome_classes (syscache : gmap string pg_authid) (now : TimestampTz)
    (role client_pass : string) (md5_salt : option string) :
  (forall (class : FailureClass) (detail : option logmsg),
      fails syscache now role client_pass md5_salt class detail ->
      verify syscache now role client_pass md5_salt = (STATUS_ERROR, detail))
  /\ (verify syscache now role client_pass md5_salt = (STATUS_OK, None)
      \/ exists (class : FailureClass) (detail : option logmsg),
           fails syscache now role client_pass md5_salt class detail)
  /\ (forall (class class' : FailureClass) (detail : option logmsg),
        fails syscache now role client_pass md5_salt class detail ->
        fails syscache now role client_pass md5_salt class' detail ->
        class = class').
Proof.
  split; [| split].
  - intros class detail
      [Hrole | roleTup Hrole Hpass | roleTup Hrole Hpass
       | roleTup shadow_pass Hrole Hpass Hne Hfail
       | roleTup shadow_pass c p Hrole Hpass Hne Hvalues Hdiff
       | roleTup shadow_pass vuntil Hrole Hpass Hne [v Hv] Hvu Hlt].
    + unfold md5_crypt_verify. rewrite Hrole. reflexivity.
    + unfold md5_crypt_verify. rewrite Hrole, Hpass. reflexivity.
    + unfold md5_crypt_verify. rewrite Hrole, Hpass. reflexivity.
    + apply (verify_hash_failure_iff _ _ _ _ _ _ Hrole Hpass Hne).
      apply crypt_values_none_iff. exact Hfail.
    + apply (verify_mismatch_iff _ _ _ _ _ _ Hrole Hpass Hne).
      exists c, p. split; assumption.
    + rewrite (verify_reaches_comparison _ _ _ _ _ _ Hrole Hpass Hne).
      rewrite Hv, strcmp_eq_refl, Hvu.
      destruct (Z.ltb_spec vuntil now); [reflexivity | lia].
  - destruct (syscache !! role) as [roleTup |] eqn:Hrole;
      [| right; eexists _, _; apply role_missing; exact Hrole].
    destruct (rolpassword roleTup) as [shadow_pass |] eqn:Hpass;
      [| right; eexists _, _; eapply password_null; eassumption].
    destruct (String.string_dec shadow_pass "") as [-> | Hne];
      [right; eexists _, _; eapply password_empty; eassumption |].
    rewrite (verify_reaches_comparison _ _ _ _ _ _ Hrole Hpass Hne).
    destruct (values role client_pass md5_salt shadow_pass) as [[c p] |] eqn:Hvalues.
    + destruct (strcmp_eq c p) eqn:Hcmp.
      * apply strcmp_eq_true in Hcmp. subst p.
        destruct (rolvaliduntil roleTup) as [vuntil |] eqn:Hvu; [| left; reflexivity].
        destruct (Z.ltb_spec vuntil now); [| left; reflexivity].
        right. eexists _, _. eapply password_expired; try eassumption.
        exists c. exact Hvalues.
      * apply strcmp_eq_false in Hcmp.
        right. eexists _, _. eapply password_differs; eassumption.
    + right. eexists _, _. eapply hash_failed; try eassumption.
      apply crypt_values_none_iff. exact Hvalues.
  - intros class class' detail Hclass Hclass'.
    destruct Hclass; inversion Hclass'; reflexivity.
Qed.


(** C10. The form of a stored password is read off its bytes alone. A
    stored value of the hashed shape (the marker in front, the length of a
    hashed password) is handled as a hashed password, whatever it was
    meant to be:
    with a salt, its marker is stripped and the rest is salted, with no
    name-keyed hash; a presented plaintext is accepted exactly when its
    name-keyed hash is the stored value (and the password has not
    expired). So a client that presents the stored bytes themselves as a
    plaintext is rejected unless their name-keyed hash is the stored
    value. *)
Theorem shape_decides_form (syscache : gmap string pg_authid) (role : string)
    (roleTup : pg_authid) (shadow_pass : string) :
  syscache !! role = Some roleTup ->
  rolpassword roleTup = Some shadow_pass ->
  String.prefix "md5" shadow_pass = true ->
  String.length shadow_pass = MD5_PASSWD_LEN ->
  stored_form MD5_PASSWD_LEN shadow_pass = Hashed
  /\ (forall client_pass salt : string,
        values role client_pass (Some salt) shadow_pass
        = (crypt_pwd ← pg_md5_encrypt (skip_bytes 3 shadow_pass) salt;
           Some (client_pass, crypt_pwd)))
  /\ (forall (now : TimestampTz) (client_pass : string),
        verify syscache now role client_pass None = (STATUS_OK, None) <->
        pg_md5_encrypt client_pass role = Some shadow_pass /\ not_expired roleTup now)
  /\ (forall now : TimestampTz,
        pg_md5_encrypt shadow_pass role <> Some shadow_pass ->
        fst (verify syscache now role shadow_pass None) = STATUS_ERROR).
Proof.
  intros Hrole Hpass Hmarker Hlength.
  assert (Hform : is_md5 shadow_pass = true).
  { unfold isMD5. rewrite Hmarker. apply Nat.eqb_eq in Hlength. rewrite Hlength. reflexivity. }
  pose proof (isMD5_nonempty _ _ Hform) as Hne.
  assert (Hplain : forall (now : TimestampTz) (client_pass : string),
             verify syscache now role client_pass None = (STATUS_OK, None) <->
             pg_md5_encrypt client_pass role = Some shadow_pass
             /\ not_expired roleTup now).
  { intros now client_pass.
    rewrite (verify_accepts_iff _ _ _ _ _ _ Hrole Hpass Hne).
    unfold password_matches, crypt_values. rewrite Hform.
    destruct (pg_md5_encrypt client_pass role) as [h |]; simpl.
    - split.
      + intros [[v [= -> ->]] Hexp]. split; [reflexivity | exact Hexp].
      + intros [[= ->] Hexp]. split; [eexists; reflexivity | exact Hexp].
    - split; [intros [[v Hv] _]; discriminate | intros [Hv _]; discriminate]. }
  split; [apply stored_form_hashed; exact Hform |].
  split; [intros client_pass salt; unfold crypt_values; rewrite Hform; reflexivity |].
  split; [exact Hplain |].
  intros now Hfix.
  rewrite (verify_reaches_comparison _ _ _ _ _ _ Hrole Hpass Hne).
  unfold crypt_values. rewrite Hform.
  destruct (pg_md5_encrypt shadow_pass role) as [h |]; simpl; [| reflexivity].
  destruct (strcmp_eq h shadow_pass) eqn:Hcmp; [| reflexivity].
  apply strcmp_eq_true in Hcmp. congruence.
Qed.

End Claims.

(** ** The properties on the sample directory *)

#[local] Abbreviation sample_verify :=
  (md5_crypt_verify Sample.PASSWD_LEN Sample.encrypt Sample.authid).

Lemma upgrade_equivalence_witness :
  (forall presented : string,
      crypt_values Sample.PASSWD_LEN Sample.encrypt "alice" presented (Some "XY12") "secret123"
      = crypt_values Sample.PASSWD_LEN Sample.encrypt "alice" presented (Some "XY12")
                     Sample.alice_hashed)
  /\ sample_verify 0%Z "alice" "md5XY12alicesecret12300000000000000" (Some "XY12")
     = md5_crypt_verify Sample.PASSWD_LEN Sample.encrypt
         (<["alice" := mk_authid (Some Sample.alice_hashed) None]> Sample.authid)
         0%Z "alice" "md5XY12alicesecret12300000000000000" (Some "XY12").
Proof.
  destruct (upgrade_equivalence Sample.PASSWD_LEN Sample.encrypt
              "secret123" "alice" "XY12" Sample.alice_hashed)
    as [Hvalues Hverify]; [reflexivity | reflexivity | reflexivity |].
  split; [exact Hvalues |].
  assert (Hne : "secret123" <> "") by discriminate.
  rewrite <- (Hverify Hne Sample.authid None 0%Z).
  vm_compute. reflexivity.
Defined.

Lemma comparison_case_split_witness :
  sample_verify 0%Z "alice" "md5XY12alicesecret12300000000000000" (Some "XY12")
  = (STATUS_OK, None) <->
  (exists v : string,
      comparison_by_cases Sample.PASSWD_LEN Sample.encrypt "alice"
        "md5XY12alicesecret12300000000000000" (Some "XY12") "secret123" = Some (v, v))
  /\ not_expired (mk_authid (Some "secret123") None) 0%Z.
Proof.
  apply (comparison_case_split Sample.PASSWD_LEN Sample.encrypt Sample.authid 0%Z "alice"
           "md5XY12alicesecret12300000000000000" (Some "XY12")
           (mk_authid (Some "secret123") None) "secret123").
  - vm_compute. reflexivity.
  - reflexivity.
  - discriminate.
  - intros intermediate [= <-]. reflexivity.
Defined.

Lemma identity_not_found_witness :
  sample_verify 0%Z "mallory" "secret123" None
  = (STATUS_ERROR, Some (RoleDoesNotExist "mallory")).
Proof.
  apply (identity_not_found Sample.PASSWD_LEN Sample.encrypt Sample.authid "mallory").
  vm_compute. reflexivity.
Defined.

Lemma empty_credential_rejected_witness :
  sample_verify 0%Z "erin" "" None = (STATUS_ERROR, Some (EmptyPassword "erin")).
Proof.
  apply (empty_credential_rejected Sample.PASSWD_LEN Sample.encrypt Sample.authid "erin"
           (mk_authid (Some "") None)).
  - vm_compute. reflexivity.
  - reflexivity.
Defined.

Lemma expiration_boundary_witness :
  sample_verify (1000000000 - 1000000)%Z "carol" "hunter2" None = (STATUS_OK, None)
  /\ sample_verify (1000000000 + 1000000)%Z "carol" "hunter2" None
     = (STATUS_ERROR, Some (ExpiredPassword "carol")).
Proof.
  apply (expiration_boundary Sample.PASSWD_LEN Sample.encrypt Sample.authid
           "carol" "hunter2" None
           (mk_authid (Some "hunter2") (Some 1000000000%Z)) "hunter2").
  - vm_compute. reflexivity.
  - reflexivity.
  - discriminate.
  - exists "hunter2". reflexivity.
  - reflexivity.
  - lia.
Defined.

Lemma hash_failure_outcome_witness :
  md5_crypt_verify Sample.PASSWD_LEN Sample.encrypt_fails Sample.authid 0%Z "bob" "p@ss" None
  = (STATUS_ERROR, None).
Proof.
  apply (hash_failure_outcome Sample.PASSWD_LEN Sample.encrypt_fails Sample.authid 0%Z
           "bob" "p@ss" None
           (mk_authid (Some "md5bobp@ss0000000000000000000000000") None)
           "md5bobp@ss0000000000000000000000000").
  - vm_compute. reflexivity.
  - reflexivity.
  - discriminate.
  - apply fails_hashing_client; reflexivity.
Defined.

Lemma outcome_classes_witness :
  sample_verify 0%Z "mallory" "x" None = (STATUS_ERROR, Some (RoleDoesNotExist "mallory"))
  /\ sample_verify 0%Z "dave" "x" None = (STATUS_ERROR, Some (NoPasswordAssigned "dave"))
  /\ sample_verify 0%Z "erin" "x" None = (STATUS_ERROR, Some (EmptyPassword "erin"))
  /\ sample_verify 0%Z "bob" "x" None = (STATUS_ERROR, Some (PasswordMismatch "bob"))
  /\ sample_verify 2000000000%Z "carol" "hunter2" None
     = (STATUS_ERROR, Some (ExpiredPassword "carol")).
Proof.
  split; [| split; [| split; [| split]]].
  - apply (proj1 (outcome_classes Sample.PASSWD_LEN Sample.encrypt Sample.authid
                    0%Z "mallory" "x" None) IdentityNotFound).
    apply role_missing. vm_compute. reflexivity.
  - apply (proj1 (outcome_classes Sample.PASSWD_LEN Sample.encrypt Sample.authid
                    0%Z "dave" "x" None) EmptyCredential).
    apply (password_null _ _ _ _ _ _ _ (mk_authid None None));
      [vm_compute; reflexivity | reflexivity].
  - apply (proj1 (outcome_classes Sample.PASSWD_LEN Sample.encrypt Sample.authid
                    0%Z "erin" "x" None) EmptyCredential).
    apply (password_empty _ _ _ _ _ _ _ (mk_authid (Some "") None));
      [vm_compute; reflexivity | reflexivity].
  - apply (proj1 (outcome_classes Sample.PASSWD_LEN Sample.encrypt Sample.authid
                    0%Z "bob" "x" None) Mismatch).
    apply (password_differs _ _ _ _ _ _ _
             (mk_authid (Some "md5bobp@ss0000000000000000000000000") None)
             "md5bobp@ss0000000000000000000000000"
             "md5bobx0000000000000000000000000000"
             "md5bobp@ss0000000000000000000000000");
      [vm_compute; reflexivity | reflexivity | discriminate | reflexivity | discriminate].
  - apply (proj1 (outcome_classes Sample.PASSWD_LEN Sample.encrypt Sample.authid
                    2000000000%Z "carol" "hunter2" None) Expired).
    apply (password_expired _ _ _ _ _ _ _
             (mk_authid (Some "hunter2") (Some 1000000000%Z)) "hunter2" 1000000000%Z);
      [vm_compute; reflexivity | reflexivity | discriminate
       | exists "hunter2"; reflexivity | reflexivity | reflexivity].
Defined.


(** A hash that does not tell two passwords apart makes the routine accept
    both: with [Sample.encrypt], which reads the first bytes only, two
    passwords that differ in their last byte get the same name-keyed hash,
    and both are accepted. *)
Example same_hash_is_accepted :
  sample_verify 0%Z "frank" "correct-horse-battery-staple" None = (STATUS_OK, None)
  /\ one_byte_altered "correct-horse-battery-staple" "correct-horse-battery-stapld"
  /\ sample_verify 0%Z "frank" "correct-horse-battery-stapld" None = (STATUS_OK, None).
Proof.
  repeat split; try (vm_compute; reflexivity);
    repeat apply altered_later; apply altered_here; discriminate.
Qed.

Lemma shape_decides_form_witness :
  fst (sample_verify 0%Z "bob" "md5bobp@ss0000000000000000000000000" None) = STATUS_ERROR.
Proof.
  refine (proj2 (proj2 (proj2 (shape_decides_form Sample.PASSWD_LEN Sample.encrypt
                                 Sample.authid "bob"
                                 (mk_authid (Some "md5bobp@ss0000000000000000000000000") None)
                                 "md5bobp@ss0000000000000000000000000" _ _ _ _))) 0%Z _).
  - vm_compute. reflexivity.
  - reflexivity.
  - reflexivity.
  - reflexivity.
  - discriminate.
Defined.

(** The scenarios of the design document, with [Sample.encrypt] for the
    hash. *)
Example scenario_alice_challenge :
  sample_verify 0%Z "alice" "md5XY12alicesecret12300000000000000" (Some "XY12")
  = (STATUS_OK, None)
  /\ sample_verify 0%Z "alice" "md5ZZ99alicesecret12300000000000000" (Some "XY12")
     = (STATUS_ERROR, Some (PasswordMismatch "alice")).
Proof. split; vm_compute; reflexivity. Qed.

Example scenario_bob_plaintext :
  sample_verify 0%Z "bob" "p@ss" None = (STATUS_OK, None)
  /\ sample_verify 0%Z "bob" "p@ss " None
     = (STATUS_ERROR, Some (PasswordMismatch "bob")).
Proof. split; vm_compute; reflexivity. Qed.

Example scenario_no_password :
  sample_verify 0%Z "dave" "x" None = (STATUS_ERROR, Some (NoPasswordAssigned "dave")).
Proof. vm_compute. reflexivity. Qed.

(** ** Further properties of [md5_crypt_verify] *)

Section Further.

Variable MD5_PASSWD_LEN : nat.
Variable pg_md5_encrypt : string -> string -> option string.

#[local] Abbreviation verify := (md5_crypt_verify MD5_PASSWD_LEN pg_md5_encrypt).
#[local] Abbreviation values := (crypt_values MD5_PASSWD_LEN pg_md5_encrypt).
#[local] Abbreviation is_md5 := (isMD5 MD5_PASSWD_LEN).
#[local] Abbreviation matches := (password_matches MD5_PASSWD_LEN pg_md5_encrypt).

(** The routine is past its early returns only for a role that is found
    and has a password that is neither NULL nor empty. *)
Lemma verify_early_returns (syscache : gmap string pg_authid) (now : TimestampTz)
    (role client_pass : string) (md5_salt : option string) :
  (exists (roleTup : pg_authid) (shadow_pass : string),
      syscache !! role = Some roleTup
      /\ rolpassword roleTup = Some shadow_pass
      /\ shadow_pass <> "")
  \/ (exists detail : logmsg,
        verify syscache now role client_pass md5_salt = (STATUS_ERROR, Some detail)
        /\ detail <> ExpiredPassword role
        /\ detail <> PasswordMismatch role).
Proof.
  unfold md5_crypt_verify.
  destruct (syscache !! role) as [roleTup |];
    [| right; eexists; split; [reflexivity | split; discriminate]].
  destruct (rolpassword roleTup) as [shadow_pass |] eqn:Hpass;
    [| right; eexists; split; [reflexivity | split; discriminate]].
  destruct shadow_pass as [| c0 rest];
    [right; eexists; split; [reflexivity | split; discriminate] |].
  left. exists roleTup, (String c0 rest). repeat split; [exact Hpass | discriminate].
Qed.

(** Acceptance, in full: the routine returns [STATUS_OK] exactly when the
    role is found, its password is neither NULL nor empty, the presented
    value matches and the password has not expired. *)
Theorem accepted_iff (syscache : gmap string pg_authid) (now : TimestampTz)
    (role client_pass : string) (md5_salt : option string) :
  verify syscache now role client_pass md5_salt = (STATUS_OK, None) <->
  exists (roleTup : pg_authid) (shadow_pass : string),
    syscache !! role = Some roleTup
    /\ rolpassword roleTup = Some shadow_pass
    /\ shadow_pass <> ""
    /\ matches role client_pass md5_salt shadow_pass
    /\ not_expired roleTup now.
Proof.
  split.
  - intros Hok.
    destruct (verify_early_returns syscache now role client_pass md5_salt)
      as [(roleTup & shadow_pass & Hrole & Hpass & Hne) | (detail & Hrej & _)];
      [| congruence].
    exists roleTup, shadow_pass.
    apply (verify_accepts_iff _ _ _ _ _ _ Hrole Hpass Hne) in Hok.
    tauto.
  - intros (roleTup & shadow_pass & Hrole & Hpass & Hne & Hmatch & Hexp).
    apply (verify_accepts_iff _ _ _ _ _ _ Hrole Hpass Hne). tauto.
Qed.

(** The expiry is looked at after the comparison only: the routine reports
    an expired password exactly when the presented value matches the
    password of the role and the expiry of the role is before the current
    time. A presented value that does not match is never told that the
    password has expired. *)
Theorem expired_iff (syscache : gmap string pg_authid) (now : TimestampTz)
    (role client_pass : string) (md5_salt : option string) :
  verify syscache now role client_pass md5_salt
    = (STATUS_ERROR, Some (ExpiredPassword role)) <->
  exists (roleTup : pg_authid) (shadow_pass : string) (vuntil : TimestampTz),
    syscache !! role = Some roleTup
    /\ rolpassword roleTup = Some shadow_pass
    /\ shadow_pass <> ""
    /\ matches role client_pass md5_salt shadow_pass
    /\ rolvaliduntil roleTup = Some vuntil
    /\ (vuntil < now)%Z.
Proof.
  split.
  - intros Hexp.
    destruct (verify_early_returns syscache now role client_pass md5_salt)
      as [(roleTup & shadow_pass & Hrole & Hpass & Hne) | (detail & Hrej & Hd & _)];
      [| congruence].
    exists roleTup, shadow_pass.
    rewrite (verify_reaches_comparison _ _ _ _ _ _ Hrole Hpass Hne) in Hexp.
    unfold password_matches.
    destruct (values role client_pass md5_salt shadow_pass) as [[c p] |];
      [| discriminate].
    destruct (strcmp_eq c p) eqn:Hcmp; [| discriminate].
    apply strcmp_eq_true in Hcmp. subst p.
    destruct (rolvaliduntil roleTup) as [vuntil |]; [| discriminate].
    exists vuntil. destruct (Z.ltb_spec vuntil now); [| discriminate].
    repeat split; try assumption. exists c. reflexivity.
  - intros (roleTup & shadow_pass & vuntil & Hrole & Hpass & Hne & [v Hv] & Hvu & Hlt).
    rewrite (verify_reaches_comparison _ _ _ _ _ _ Hrole Hpass Hne).
    rewrite Hv, strcmp_eq_refl, Hvu.
    destruct (Z.ltb_spec vuntil now); [reflexivity | lia].
Qed.

(** The threshold of the expiry: for a presented value that matches and an
    expiry [T], the routine accepts at every time up to and including [T]
    and reports an expired password at every time after [T]. *)
Theorem expiry_threshold (syscache : gmap string pg_authid)
    (role client_pass : string) (md5_salt : option string)
    (roleTup : pg_authid) (shadow_pass : string) (T now : TimestampTz) :
  syscache !! role = Some roleTup ->
  rolpassword roleTup = Some shadow_pass ->
  shadow_pass <> "" ->
  matches role client_pass md5_salt shadow_pass ->
  rolvaliduntil roleTup = Some T ->
  (verify syscache now role client_pass md5_salt = (STATUS_OK, None) <-> (now <= T)%Z)
  /\ (verify syscache now role client_pass md5_salt
       = (STATUS_ERROR, Some (ExpiredPassword role)) <-> (T < now)%Z).
Proof.
  intros Hrole Hpass Hne [v Hv] HT.
  rewrite (verify_reaches_comparison _ _ _ _ _ _ Hrole Hpass Hne).
  rewrite Hv, strcmp_eq_refl, HT.
  destruct (Z.ltb_spec T now); split; split;
    solve [reflexivity | discriminate | lia].
Qed.

(** The current time matters through the expiry alone: between an earlier
    and a later time the outcome of a call is the same, or it goes from
    accepted to expired. So what is rejected stays rejected, and no other
    diagnostic depends on the time. *)
Theorem later_only_expires (syscache : gmap string pg_authid) (now later : TimestampTz)
    (role client_pass : string) (md5_salt : option string) :
  (now <= later)%Z ->
  verify syscache now role client_pass md5_salt
  = verify syscache later role client_pass md5_salt
  \/ (verify syscache now role client_pass md5_salt = (STATUS_OK, None)
      /\ verify syscache later role client_pass md5_salt
         = (STATUS_ERROR, Some (ExpiredPassword role))).
Proof.
  intros Hle. unfold md5_crypt_verify.
  destruct (syscache !! role) as [roleTup |]; [| left; reflexivity].
  destruct (rolpassword roleTup) as [shadow_pass |]; [| left; reflexivity].
  destruct shadow_pass as [| c0 rest]; [left; reflexivity |].
  destruct (values role client_pass md5_salt (String c0 rest)) as [[c p] |];
    [| left; reflexivity].
  destruct (strcmp_eq c p); [| left; reflexivity].
  destruct (rolvaliduntil roleTup) as [vuntil |]; [| left; reflexivity].
  destruct (Z.ltb_spec vuntil now), (Z.ltb_spec vuntil later);
    solve [left; reflexivity | right; split; reflexivity | lia].
Qed.

(** With a salt, one response at most is accepted for a role: two
    presented values that are both accepted (at whatever times) are the
    same bytes. *)
Theorem challenge_response_unique (syscache : gmap string pg_authid)
    (now now' : TimestampTz) (role response response' salt : string) :
  verify syscache now role response (Some salt) = (STATUS_OK, None) ->
  verify syscache now' role response' (Some salt) = (STATUS_OK, None) ->
  response = response'.
Proof.
  intros Hok Hok'.
  destruct (verify_early_returns syscache now role response (Some salt))
    as [(roleTup & shadow_pass & Hrole & Hpass & Hne) | (detail & Hrej & _)];
    [| congruence].
  apply (verify_accepts_iff _ _ _ _ _ _ Hrole Hpass Hne) in Hok, Hok'.
  destruct Hok as [[v Hv] _], Hok' as [[v' Hv'] _].
  destruct (crypt_values_salted _ _ _ _ _ _ _ _ Hv) as [Hc Hother].
  rewrite Hother in Hv'. congruence.
Qed.

(** A plaintext password checked against a stored legacy plaintext is
    compared as it is, and no hash is called: the outcome is the same
    whatever the hash does (also if it fails), the password is accepted
    exactly when it is the stored bytes and the password has not expired,
    and any other password is reported as a mismatch. *)
Theorem legacy_plaintext_needs_no_hash (syscache : gmap string pg_authid)
    (now : TimestampTz) (role client_pass : string)
    (roleTup : pg_authid) (shadow_pass : string) :
  syscache !! role = Some roleTup ->
  rolpassword roleTup = Some shadow_pass ->
  shadow_pass <> "" ->
  is_md5 shadow_pass = false ->
  (forall other_encrypt : string -> string -> option string,
      md5_crypt_verify MD5_PASSWD_LEN other_encrypt syscache now role client_pass None
      = verify syscache now role client_pass None)
  /\ (verify syscache now role client_pass None = (STATUS_OK, None) <->
      client_pass = shadow_pass /\ not_expired roleTup now)
  /\ (client_pass <> shadow_pass ->
      verify syscache now role client_pass None
      = (STATUS_ERROR, Some (PasswordMismatch role))).
Proof.
  intros Hrole Hpass Hne Hform.
  assert (Hvalues : forall encrypt : string -> string -> option string,
             crypt_values MD5_PASSWD_LEN encrypt role client_pass None shadow_pass
             = Some (client_pass, shadow_pass)).
  { intros encrypt. unfold crypt_values. rewrite Hform. reflexivity. }
  split; [| split].
  - intros other_encrypt.
    rewrite !(verify_reaches_comparison _ _ _ _ _ _ Hrole Hpass Hne).
    rewrite !Hvalues. reflexivity.
  - rewrite (verify_accepts_iff _ _ _ _ _ _ Hrole Hpass Hne).
    unfold password_matches. rewrite Hvalues. split.
    + intros [[v Hv] Hexp]. split; [congruence | exact Hexp].
    + intros [-> Hexp]. split; [eexists; reflexivity | exact Hexp].
  - intros Hdiff.
    apply (verify_mismatch_iff _ _ _ _ _ _ Hrole Hpass Hne).
    exists client_pass, shadow_pass. split; [apply Hvalues | exact Hdiff].
Qed.

(** An empty password sent in plaintext is accepted in one case only: the
    stored password has the hashed shape and is the name-keyed hash of the
    empty string. Against a stored legacy plaintext it is never accepted. *)
Theorem empty_plaintext_accepted_only_hashed (syscache : gmap string pg_authid)
    (now : TimestampTz) (role : string) (roleTup : pg_authid) (shadow_pass : string) :
  syscache !! role = Some roleTup ->
  rolpassword roleTup = Some shadow_pass ->
  verify syscache now role "" None = (STATUS_OK, None) ->
  is_md5 shadow_pass = true /\ pg_md5_encrypt "" role = Some shadow_pass.
Proof.
  intros Hrole Hpass Hok.
  assert (Hne : shadow_pass <> "").
  { intros ->. unfold md5_crypt_verify in Hok.
    rewrite Hrole, Hpass in Hok. discriminate Hok. }
  apply (verify_accepts_iff _ _ _ _ _ _ Hrole Hpass Hne) in Hok.
  destruct Hok as [[v Hv] _]. unfold crypt_values in Hv.
  destruct (is_md5 shadow_pass).
  - split; [reflexivity |].
    destruct (pg_md5_encrypt "" role) as [h |]; simpl in Hv; [| discriminate].
    congruence.
  - exfalso. apply Hne. congruence.
Qed.

(** With a salt, a stored hashed password is checked without the role
    name: two roles that hold the same hashed value (and the same expiry)
    accept and reject the same responses to the same salt. *)
Theorem salted_check_ignores_role_name (syscache : gmap string pg_authid)
    (now : TimestampTz) (role role' response salt : string)
    (roleTup roleTup' : pg_authid) (shadow_pass : string) :
  syscache !! role = Some roleTup ->
  syscache !! role' = Some roleTup' ->
  rolpassword roleTup = Some shadow_pass ->
  rolpassword roleTup' = Some shadow_pass ->
  rolvaliduntil roleTup = rolvaliduntil roleTup' ->
  is_md5 shadow_pass = true ->
  fst (verify syscache now role response (Some salt))
  = fst (verify syscache now role' response (Some salt)).
Proof.
  intros Hrole Hrole' Hpass Hpass' Hvu Hform.
  pose proof (isMD5_nonempty _ _ Hform) as Hne.
  rewrite (verify_reaches_comparison _ _ _ _ _ _ Hrole Hpass Hne).
  rewrite (verify_reaches_comparison _ _ _ _ _ _ Hrole' Hpass' Hne).
  unfold crypt_values. rewrite Hform, Hvu.
  destruct (pg_md5_encrypt _ salt) as [e |]; simpl; [| reflexivity].
  destruct (strcmp_eq response e); [| reflexivity].
  destruct (rolvaliduntil roleTup') as [vuntil |]; [| reflexivity].
  destruct (vuntil <? now)%Z; reflexivity.
Qed.

(** The two ways of presenting a password agree: when a plaintext password
    is accepted for a role, the response that a client computes from it
    for a salt (the password hashed keyed on the role name, the marker
    stripped, hashed again with the salt) is accepted as well, whichever
    form the stored password has. *)
Theorem accepted_password_gives_accepted_response (syscache : gmap string pg_authid)
    (now : TimestampTz) (role password salt hashed response : string) :
  verify syscache now role password None = (STATUS_OK, None) ->
  pg_md5_encrypt password role = Some hashed ->
  pg_md5_encrypt (skip_bytes 3 hashed) salt = Some response ->
  verify syscache now role response (Some salt) = (STATUS_OK, None).
Proof.
  intros Hok Hhash Hsalted.
  destruct (verify_early_returns syscache now role password None)
    as [(roleTup & shadow_pass & Hrole & Hpass & Hne) | (detail & Hrej & _)];
    [| congruence].
  apply (verify_accepts_iff _ _ _ _ _ _ Hrole Hpass Hne) in Hok.
  apply (verify_accepts_iff _ _ _ _ _ _ Hrole Hpass Hne).
  destruct Hok as [[v Hv] Hexp]. split; [| exact Hexp].
  exists response. unfold crypt_values in *.
  destruct (is_md5 shadow_pass).
  - rewrite Hhash in Hv. simpl in Hv.
    assert (hashed = shadow_pass) as <- by congruence.
    change (pg_md5_encrypt (skip_bytes 3 hashed) salt
            ≫= (fun crypt_pwd : string => Some (response, crypt_pwd))
            = Some (response, response)).
    rewrite Hsalted. reflexivity.
  - assert (password = shadow_pass) as <- by congruence.
    rewrite Hhash. simpl.
    change (pg_md5_encrypt (skip_bytes 3 hashed) salt
            ≫= (fun crypt_pwd : string => Some (response, crypt_pwd))
            = Some (response, response)).
    rewrite Hsalted. reflexivity.
Qed.

(** Skipping the marker of a value of the hashed shape stays inside the
    string: the value is the marker followed by what is left, and what is
    left has three bytes less than [MD5_PASSWD_LEN]. *)
Theorem marker_skip_in_bounds (passwd : string) :
  is_md5 passwd = true ->
  passwd = "md5" ++ skip_bytes 3 passwd
  /\ String.length (skip_bytes 3 passwd) + 3 = MD5_PASSWD_LEN.
Proof.
  unfold isMD5. intros Hshape.
  apply andb_true_iff in Hshape. destruct Hshape as [Hmarker Hlength].
  apply Nat.eqb_eq in Hlength.
  apply prefix_cons in Hmarker. destruct Hmarker as (p1 & -> & Hmarker).
  apply prefix_cons in Hmarker. destruct Hmarker as (p2 & -> & Hmarker).
  apply prefix_cons in Hmarker. destruct Hmarker as (p3 & -> & _).
  cbn [skip_bytes String.length] in *. split; [reflexivity | lia].
Qed.

End Further.

Lemma expiry_threshold_witness :
  sample_verify 1000000000%Z "carol" "hunter2" None = (STATUS_OK, None) <->
  (1000000000 <= 1000000000)%Z.
Proof.
  apply (expiry_threshold Sample.PASSWD_LEN Sample.encrypt Sample.authid
           "carol" "hunter2" None
           (mk_authid (Some "hunter2") (Some 1000000000%Z)) "hunter2"
           1000000000%Z 1000000000%Z).
  - vm_compute. reflexivity.
  - reflexivity.
  - discriminate.
  - exists "hunter2". reflexivity.
  - reflexivity.
Defined.

Lemma later_only_expires_witness :
  sample_verify 5%Z "carol" "hunter2" None
  = sample_verify 2000000000%Z "carol" "hunter2" None
  \/ (sample_verify 5%Z "carol" "hunter2" None = (STATUS_OK, None)
      /\ sample_verify 2000000000%Z "carol" "hunter2" None
         = (STATUS_ERROR, Some (ExpiredPassword "carol"))).
Proof.
  apply (later_only_expires Sample.PASSWD_LEN Sample.encrypt Sample.authid
           5%Z 2000000000%Z "carol" "hunter2" None).
  lia.
Defined.

Lemma challenge_response_unique_witness :
  "md5XY12alicesecret12300000000000000" = "md5XY12alicesecret12300000000000000".
Proof.
  apply (challenge_response_unique Sample.PASSWD_LEN Sample.encrypt Sample.authid
           0%Z 7%Z "alice" _ _ "XY12").
  - vm_compute. reflexivity.
  - vm_compute. reflexivity.
Defined.

Lemma legacy_plaintext_needs_no_hash_witness :
  md5_crypt_verify Sample.PASSWD_LEN Sample.encrypt_fails Sample.authid
    0%Z "alice" "secret123" None
  = sample_verify 0%Z "alice" "secret123" None.
Proof.
  refine (proj1 (legacy_plaintext_needs_no_hash Sample.PASSWD_LEN Sample.encrypt
                   Sample.authid 0%Z "alice" "secret123"
                   (mk_authid (Some "secret123") None) "secret123" _ _ _ _)
                Sample.encrypt_fails).
  - vm_compute. reflexivity.
  - reflexivity.
  - discriminate.
  - reflexivity.
Defined.

Lemma empty_plaintext_accepted_only_hashed_witness :
  isMD5 Sample.PASSWD_LEN "md5gina0000000000000000000000000000" = true
  /\ Sample.encrypt "" "gina" = Some "md5gina0000000000000000000000000000".
Proof.
  apply (empty_plaintext_accepted_only_hashed Sample.PASSWD_LEN Sample.encrypt
           (<["gina" := mk_authid (Some "md5gina0000000000000000000000000000") None]>
              Sample.authid)
           0%Z "gina"
           (mk_authid (Some "md5gina0000000000000000000000000000") None)).
  - vm_compute. reflexivity.
  - reflexivity.
  - vm_compute. reflexivity.
Defined.

Lemma salted_check_ignores_role_name_witness :
  fst (md5_crypt_verify Sample.PASSWD_LEN Sample.encrypt
         (<["robert" := mk_authid (Some "md5bobp@ss0000000000000000000000000") None]>
            Sample.authid)
         0%Z "bob" "md5XY12bobp@ss000000000000000000000" (Some "XY12"))
  = fst (md5_crypt_verify Sample.PASSWD_LEN Sample.encrypt
           (<["robert" := mk_authid (Some "md5bobp@ss0000000000000000000000000") None]>
              Sample.authid)
           0%Z "robert" "md5XY12bobp@ss000000000000000000000" (Some "XY12")).
Proof.
  apply (salted_check_ignores_role_name Sample.PASSWD_LEN Sample.encrypt _ 0%Z
           "bob" "robert" _ "XY12"
           (mk_authid (Some "md5bobp@ss0000000000000000000000000") None)
           (mk_authid (Some "md5bobp@ss0000000000000000000000000") None)
           "md5bobp@ss0000000000000000000000000").
  - vm_compute. reflexivity.
  - vm_compute. reflexivity.
  - reflexivity.
  - reflexivity.
  - reflexivity.
  - reflexivity.
Defined.

Lemma accepted_password_gives_accepted_response_witness :
  sample_verify 0%Z "bob" "md5XY12bobp@ss000000000000000000000" (Some "XY12")
  = (STATUS_OK, None).
Proof.
  apply (accepted_password_gives_accepted_response Sample.PASSWD_LEN Sample.encrypt
           Sample.authid 0%Z "bob" "p@ss" "XY12" "md5bobp@ss0000000000000000000000000").
  - vm_compute. reflexivity.
  - reflexivity.
  - reflexivity.
Defined.

Lemma marker_skip_in_bounds_witness :
  Sample.alice_hashed = "md5" ++ skip_bytes 3 Sample.alice_hashed
  /\ String.length (skip_bytes 3 Sample.alice_hashed) + 3 = Sample.PASSWD_LEN.
Proof.
  apply (marker_skip_in_bounds Sample.PASSWD_LEN Sample.alice_hashed).
  reflexivity.
Defined.

End Crypt.
